(** * server.py: local HTTPS test server

    A shallow embedding of [src/server.py].  The script is straight-line
    glue over the operating system: it looks for [cert.pem], shells out to
    [openssl] when it is missing, binds an [HTTPServer], wraps its socket
    with TLS, prints the reachable URLs and enters the serve loop.

    The embedding keeps the control flow of the two Python functions
    ([get_local_ip] and [main]) and replaces every library call by a
    primitive of a small monad.  A primitive consults an environment
    ([Env]: what the outside world answers), may change the world
    ([World]: files and open sockets) and emits one [event] into the
    trace of the run. *)

From Stdlib Require Import String Ascii ZArith List Bool Lia DecimalString.
Import ListNotations.

Local Open Scope Z_scope.
Local Open Scope list_scope.

Infix "+++" := String.append (at level 60, right associativity).

(* ================================================================= *)
(** ** Python runtime *)

Module Runtime.

(** Exceptions the script can meet.  [Other] stands for any exception
    class not singled out here. *)
Inductive exn : Type :=
| KeyboardInterrupt
| SystemExit
| OSError
| FileNotFoundError
| PermissionError
| SSLError
| Other (name : string).

(** [except KeyboardInterrupt:] matches that class only (it has no
    subclass in the standard library). *)
Definition is_KeyboardInterrupt (e : exn) : bool :=
  match e with
  | KeyboardInterrupt => true
  | _ => false
  end.

(** How a computation ends: with a value, with an exception travelling
    upwards, or never (a call that blocks for ever). *)
Inductive outcome (A : Type) : Type :=
| Done (a : A)
| Raised (e : exn)
| Forever.
Arguments Done {A} a.
Arguments Raised {A} e.
Arguments Forever {A}.

(** *** Files *)

Inductive file_status : Type :=
| Absent
| Unreadable
| Readable.

Definition filesystem : Type := string -> file_status.

(** Paths are relative to the working directory; a leading [./] does
    not change the file a path names. *)
Fixpoint resolve_fuel (n : nat) (p : string) : string :=
  match n with
  | O => p
  | S n' =>
      match p with
      | String "."%char (String "/"%char rest) => resolve_fuel n' rest
      | _ => p
      end
  end.

Definition resolve (p : string) : string := resolve_fuel (String.length p) p.

Definition stat (fs : filesystem) (p : string) : file_status := fs (resolve p).

(** [os.path.exists]. *)
Definition exists_on (fs : filesystem) (p : string) : bool :=
  match stat fs p with
  | Absent => false
  | _ => true
  end.

(** *** Sockets *)

Inductive address_family : Type := AF_INET | AF_INET6.
Inductive socket_kind : Type := SOCK_STREAM | SOCK_DGRAM.

Definition fd : Type := nat.

(** A socket object: a plain descriptor, or a descriptor wrapped by
    [ssl.wrap_socket] with the certificate file it was given. *)
Inductive socket_obj : Type :=
| Plain (s : fd)
| Tls (s : fd) (certfile : string) (server_side : bool).

(** Request handler classes of [http.server]. *)
Inductive handler_class : Type :=
| BaseHTTPRequestHandler
| SimpleHTTPRequestHandler.

(** The [HTTPServer] object: its address, its handler class and its
    [socket] attribute. *)
Record httpd_obj : Type := mk_httpd {
  server_address : string * Z;
  handler : handler_class;
  httpd_socket : socket_obj
}.

(** [httpd.socket = s]. *)
Definition set_socket (h : httpd_obj) (s : socket_obj) : httpd_obj :=
  mk_httpd (server_address h) (handler h) s.

(** *** Events *)

Inductive event : Type :=
| Print (line : string)
| PathExists (path : string) (found : bool)
| System (command : string) (status : Z)
| HTTPServer (host : string) (port : Z) (res : option exn)
| WrapSocket (certfile : string) (server_side : bool)
             (cert : file_status) (res : option exn)
| SocketNew (family : address_family) (kind : socket_kind) (res : option exn)
| SocketConnect (s : fd) (host : string) (port : Z) (res : option exn)
| SocketGetsockname (s : fd) (res : exn + string * Z)
| SocketClose (s : fd) (res : option exn)
| ServeForever (sock : socket_obj) (res : outcome unit).

(** *** The outside world *)

Record World : Type := mk_world {
  fs : filesystem;
  open_socks : list fd;
  next_fd : fd
}.

(** What the environment answers.  [None] in an [option exn] means the
    call succeeds. *)
Record Env : Type := mk_env {
  argv : list string;
  (** [os.system cmd]: exit status and the files the command leaves *)
  shell : string -> filesystem -> Z * filesystem;
  (** [HTTPServer(addr, handler)]: binding and listening *)
  http_bind : option exn;
  (** [ssl.wrap_socket] once the certificate file could be opened *)
  tls_load : option exn;
  udp_socket : option exn;
  udp_connect : option exn;
  udp_getsockname : exn + string * Z;
  udp_close : option exn;
  (** [serve_forever] *)
  serve_loop : outcome unit
}.

(** *** The monad: environment, world, trace and outcome *)

Definition M (A : Type) : Type :=
  Env -> World -> list event * World * outcome A.

Definition ret {A} (a : A) : M A :=
  fun _ w => ([], w, Done a).

Definition raise {A} (e : exn) : M A :=
  fun _ w => ([], w, Raised e).

Definition bind {A B} (m : M A) (k : A -> M B) : M B :=
  fun env w =>
    match m env w with
    | (t1, w1, Done a) =>
        match k a env w1 with
        | (t2, w2, r) => (t1 ++ t2, w2, r)
        end
    | (t1, w1, Raised e) => (t1, w1, Raised e)
    | (t1, w1, Forever) => (t1, w1, Forever)
    end.

(** [try: body except <classes>: handler].  A bare [except:] is
    [catches := fun _ => true]. *)
Definition try_except {A} (body : M A) (catches : exn -> bool)
                      (handler : M A) : M A :=
  fun env w =>
    match body env w with
    | (t1, w1, Raised e) =>
        if catches e then
          match handler env w1 with
          | (t2, w2, r) => (t1 ++ t2, w2, r)
          end
        else (t1, w1, Raised e)
    | r => r
    end.

Definition bare (e : exn) : bool := true.

Declare Scope py_scope.
Delimit Scope py_scope with py.
Notation "x <- m ;; k" := (bind m (fun x => k))
  (at level 100, m at next level, right associativity) : py_scope.
Notation "m ;; k" := (bind m (fun _ => k))
  (at level 100, right associativity) : py_scope.

(** Lifts an environment answer: emit the event, then return or raise. *)
Definition answer {A} (ev : event) (res : option exn) (a : A) (w' : World)
  : list event * World * outcome A :=
  match res with
  | None => ([ev], w', Done a)
  | Some e => ([ev], w', Raised e)
  end.

(** *** Primitives

    Each library call the script makes.  Writing to the console, testing
    a path and running a shell command are taken not to raise; every
    other call raises when the environment says so. *)

Definition print (line : string) : M unit :=
  fun _ w => ([Print line], w, Done tt).

Definition os_path_exists (p : string) : M bool :=
  fun _ w => let b := exists_on (fs w) p in ([PathExists p b], w, Done b).

Definition os_system (cmd : string) : M Z :=
  fun env w =>
    match shell env cmd (fs w) with
    | (status, fs') =>
        ([System cmd status],
         mk_world fs' (open_socks w) (next_fd w),
         Done status)
    end.

(** [HTTPServer(address, handler)]: creates, binds and activates the
    listening socket. *)
Definition HTTPServer_new (address : string * Z) (handler : handler_class)
  : M httpd_obj :=
  fun env w =>
    match http_bind env with
    | None =>
        ([HTTPServer (fst address) (snd address) None],
         mk_world (fs w) (next_fd w :: open_socks w) (S (next_fd w)),
         Done (mk_httpd address handler (Plain (next_fd w))))
    | Some e =>
        ([HTTPServer (fst address) (snd address) (Some e)], w, Raised e)
    end.

Definition descriptor (s : socket_obj) : fd :=
  match s with
  | Plain d => d
  | Tls d _ _ => d
  end.

(** [ssl.wrap_socket(sock, certfile=..., server_side=...)]: the
    certificate chain is loaded from [certfile] first. *)
Definition ssl_wrap_socket (sock : socket_obj) (certfile : string)
                           (server_side : bool) : M socket_obj :=
  fun env w =>
    let st := stat (fs w) certfile in
    let res :=
      match st with
      | Absent => Some FileNotFoundError
      | Unreadable => Some PermissionError
      | Readable => tls_load env
      end in
    answer (WrapSocket certfile server_side st res) res
           (Tls (descriptor sock) certfile server_side) w.

Definition socket_socket (family : address_family) (kind : socket_kind)
  : M fd :=
  fun env w =>
    match udp_socket env with
    | None =>
        ([SocketNew family kind None],
         mk_world (fs w) (next_fd w :: open_socks w) (S (next_fd w)),
         Done (next_fd w))
    | Some e => ([SocketNew family kind (Some e)], w, Raised e)
    end.

Definition sock_connect (s : fd) (host : string) (port : Z) : M unit :=
  fun env w =>
    answer (SocketConnect s host port (udp_connect env)) (udp_connect env) tt w.

Definition sock_getsockname (s : fd) : M (string * Z) :=
  fun env w =>
    match udp_getsockname env with
    | inr name => ([SocketGetsockname s (inr name)], w, Done name)
    | inl e => ([SocketGetsockname s (inl e)], w, Raised e)
    end.

Definition release (s : fd) (l : list fd) : list fd :=
  filter (fun d => negb (Nat.eqb d s)) l.

Definition sock_close (s : fd) : M unit :=
  fun env w =>
    match udp_close env with
    | None =>
        ([SocketClose s None],
         mk_world (fs w) (release s (open_socks w)) (next_fd w),
         Done tt)
    | Some e => ([SocketClose s (Some e)], w, Raised e)
    end.

Definition serve_forever (h : httpd_obj) : M unit :=
  fun env w =>
    ([ServeForever (httpd_socket h) (serve_loop env)], w, serve_loop env).

(** *** Small pieces of the language *)

Definition nl : string := String "010"%char EmptyString.
Definition dquote : string := String "034"%char EmptyString.

(** [str(n)] for an [int], as an f-string formats it. *)
Definition str (n : Z) : string := NilZero.string_of_int (Z.to_int n).

(** [s * n]. *)
Fixpoint repeat_nat (s : string) (n : nat) : string :=
  match n with
  | O => EmptyString
  | S n' => s +++ repeat_nat s n'
  end.

Definition str_mul (s : string) (n : Z) : string := repeat_nat s (Z.to_nat n).

End Runtime.

(* ================================================================= *)
(** ** The script *)

Module Server.
Import Runtime.
Local Open Scope py_scope.

(** [get_local_ip], lines 13-22. *)
Definition get_local_ip : M string :=
  try_except
    (s <- socket_socket AF_INET SOCK_DGRAM ;;
     sock_connect s "8.8.8.8" 80 ;;
     name <- sock_getsockname s ;;
     let ip := fst name in
     sock_close s ;;
     ret ip)
    bare
    (ret "localhost"%string).

(** The command line handed to [os.system], line 34. *)
Definition openssl_command : string :=
  "openssl req -new -x509 -keyout cert.pem -out cert.pem -days 365 -nodes -subj "
  +++ dquote +++ "/CN=localhost" +++ dquote.

(** The startup report, lines 47-55 of [main]: the block of [print]
    calls between the address lookup and the serve loop. *)
Definition startup_report (PORT : Z) (local_ip : string) : M unit :=
  print (nl +++ "✅ Server started!") ;;
  print (nl +++ "📱 Access on this device:") ;;
  print ("   https://localhost:" +++ str PORT) ;;
  print (nl +++ "📱 Access on mobile (same WiFi):") ;;
  print ("   https://" +++ local_ip +++ ":" +++ str PORT) ;;
  print (nl +++ "⚠️  Note: You'll need to accept the self-signed certificate warning") ;;
  print ("    in your browser (this is normal for local development)" +++ nl) ;;
  print ("Press Ctrl+C to stop the server" +++ nl) ;;
  print (str_mul "=" 50).

(** [main], lines 24-60. *)
Definition main : M unit :=
  let PORT := 8000 in
  print "🎬 Head Tilt YouTube Controller - Local Server" ;;
  print (str_mul "=" 50) ;;
  (* Check if certificate exists, if not create one *)
  present <- os_path_exists "cert.pem" ;;
  (if negb present then
     print (nl +++ "📝 Generating self-signed certificate...") ;;
     print "   (You'll need to accept the security warning in your browser)" ;;
     _ <- os_system openssl_command ;;
     ret tt
   else ret tt) ;;
  (* Create HTTPS server *)
  let server_address := (""%string, PORT) in
  httpd <- HTTPServer_new server_address SimpleHTTPRequestHandler ;;
  (* Wrap with SSL *)
  wrapped <- ssl_wrap_socket (httpd_socket httpd) "./cert.pem" true ;;
  let httpd := set_socket httpd wrapped in
  local_ip <- get_local_ip ;;
  startup_report PORT local_ip ;;
  try_except
    (serve_forever httpd)
    is_KeyboardInterrupt
    (print (nl +++ nl +++ "👋 Server stopped")).

(** [if __name__ == '__main__': main()]: the script never reads its
    arguments. *)
Definition script : M unit := main.

End Server.

(* ================================================================= *)
(** ** Observations on a run *)

Module Obs.
Import Runtime.

Definition trace_of {A} (m : M A) (env : Env) (w : World) : list event :=
  fst (fst (m env w)).

Definition world_after {A} (m : M A) (env : Env) (w : World) : World :=
  snd (fst (m env w)).

Definition result_of {A} (m : M A) (env : Env) (w : World) : outcome A :=
  snd (m env w).

(** The process starts with the three standard descriptors taken and no
    socket open. *)
Definition boot (files : filesystem) : World := mk_world files [] 3%nat.

(** Lines written to the console, oldest first. *)
Fixpoint printed (t : list event) : list string :=
  match t with
  | [] => []
  | Print line :: t' => line :: printed t'
  | _ :: t' => printed t'
  end.

Definition is_print (ev : event) : bool :=
  match ev with
  | Print _ => true
  | _ => false
  end.

Definition is_system (ev : event) : bool :=
  match ev with
  | System _ _ => true
  | _ => false
  end.

(** A call answered with an exception. *)
Definition failed (ev : event) : bool :=
  match ev with
  | HTTPServer _ _ (Some _) => true
  | WrapSocket _ _ _ (Some _) => true
  | SocketNew _ _ (Some _) => true
  | SocketConnect _ _ _ (Some _) => true
  | SocketGetsockname _ (inl _) => true
  | SocketClose _ (Some _) => true
  | ServeForever _ (Raised _) => true
  | _ => false
  end.

(** The exception a call made by [main] itself raised, if any.  The
    socket calls belong to [get_local_ip]. *)
Definition raised_in_main (ev : event) : option exn :=
  match ev with
  | HTTPServer _ _ (Some e) => Some e
  | WrapSocket _ _ _ (Some e) => Some e
  | ServeForever _ (Raised e) => Some e
  | _ => None
  end.

Definition is_serve (ev : event) : bool :=
  match ev with
  | ServeForever _ _ => true
  | _ => false
  end.

(** The calls of the address lookup. *)
Definition is_lookup (ev : event) : bool :=
  match ev with
  | SocketNew _ _ _ | SocketConnect _ _ _ _
  | SocketGetsockname _ _ | SocketClose _ _ => true
  | _ => false
  end.

(** [needle in hay]. *)
Fixpoint contains (needle hay : string) : bool :=
  String.prefix needle hay ||
  match hay with
  | EmptyString => false
  | String _ rest => contains needle rest
  end.

(** A printed line that reports the server: the banner or a URL. *)
Definition is_report (ev : event) : bool :=
  match ev with
  | Print line => contains "Server started" line || contains "https://" line
  | _ => false
  end.

(** Neither a call of the address lookup nor a report line. *)
Definition quiet (ev : event) : bool := negb (is_lookup ev || is_report ev).

Definition is_close (ev : event) : bool :=
  match ev with
  | SocketClose _ _ => true
  | _ => false
  end.

Definition is_path_test (ev : event) : bool :=
  match ev with
  | PathExists _ _ => true
  | _ => false
  end.

(** How many events of a kind a trace has. *)
Definition count (kind : event -> bool) (t : list event) : nat :=
  length (filter kind t).

(** How many times a line was printed. *)
Definition count_line (line : string) (t : list event) : nat :=
  length (filter (String.eqb line) (printed t)).

(** Descriptors are handed out in increasing order: the open ones are
    below the next one. *)
Definition tidy (w : World) : Prop :=
  forall d, In d (open_socks w) -> (d < next_fd w)%nat.

(** Word splitting as [/bin/sh] does it on a command without
    expansions: blanks separate words, double quotes group. *)
Fixpoint sh_split (cmd : string) (cur : option string) (quoted : bool)
  : list string :=
  match cmd with
  | EmptyString =>
      match cur with
      | Some word => [word]
      | None => []
      end
  | String c rest =>
      if Ascii.eqb c "034" then
        sh_split rest (Some (match cur with Some word => word | None => EmptyString end))
                 (negb quoted)
      else if Ascii.eqb c " " && negb quoted then
        match cur with
        | Some word => word :: sh_split rest None false
        | None => sh_split rest None false
        end
      else
        sh_split rest
                 (Some ((match cur with Some word => word | None => EmptyString end)
                        +++ String c EmptyString))
                 quoted
  end.

Definition sh_words (cmd : string) : list string := sh_split cmd None false.

(** The word after [flag], if [flag] is among the words. *)
Fixpoint option_value (flag : string) (ws : list string) : option string :=
  match ws with
  | [] => None
  | word :: rest =>
      if String.eqb word flag then
        match rest with
        | v :: _ => Some v
        | [] => None
        end
      else option_value flag rest
  end.

Definition has_flag (flag : string) (ws : list string) : bool :=
  existsb (String.eqb flag) ws.


(** The environment whose shell reports exit status [k] and leaves the
    same files. *)
Definition with_status (k : Z) (env : Env) : Env :=
  mk_env (argv env) (fun cmd files => (k, snd (shell env cmd files)))
         (http_bind env) (tls_load env) (udp_socket env)
         (udp_connect env) (udp_getsockname env) (udp_close env)
         (serve_loop env).

(** A trace with the exit statuses blanked. *)
Definition blank_status (ev : event) : event :=
  match ev with
  | System cmd _ => System cmd 0
  | _ => ev
  end.

(** *** Sample environments *)

Definition no_files : filesystem := fun _ => Absent.

Definition with_cert : filesystem :=
  fun p => if String.eqb p "cert.pem" then Readable else Absent.

(** An [openssl] that works: status 0 and a readable [cert.pem]. *)
Definition openssl_ok (cmd : string) (files : filesystem) : Z * filesystem :=
  (0, fun p => if String.eqb p "cert.pem" then Readable else files p).

(** No [openssl] on the PATH: the shell reports 127 (as the wait status
    32512) and no file is written. *)
Definition openssl_missing (cmd : string) (files : filesystem)
  : Z * filesystem := (32512, files).

(** Everything works and the operator presses Ctrl+C. *)
Definition env_ok : Env :=
  mk_env [] openssl_ok None None None None
         (inr ("192.168.1.23"%string, 51234)) None (Raised KeyboardInterrupt).

(** No certificate tool. *)
Definition env_no_tool : Env :=
  mk_env [] openssl_missing None None None None
         (inr ("192.168.1.23"%string, 51234)) None (Raised KeyboardInterrupt).

(** No network: [connect] fails. *)
Definition env_offline : Env :=
  mk_env [] openssl_ok None None None (Some OSError)
         (inr ("0.0.0.0"%string, 0)) None (Raised KeyboardInterrupt).

(** Port 8000 is taken. *)
Definition env_port_busy : Env :=
  mk_env [] openssl_missing (Some OSError) None None None
         (inr ("192.168.1.23"%string, 51234)) None (Raised KeyboardInterrupt).

End Obs.

(* ================================================================= *)
(** ** The run of [main], phase by phase

    What a run of [main] from world [w] under [env] consists of, written
    as a table over the answers of the environment.  [main_run] below
    proves that [main] computes exactly this. *)

Module Summary.
Import Runtime Server Obs.

Section Run.
Variables (env : Env) (w : World).

Definition present : bool := exists_on (fs w) "cert.pem".

(** Exit status and files left by the certificate command, were it run. *)
Definition generated : Z * filesystem := shell env openssl_command (fs w).

(** The files once provisioning is over. *)
Definition files_then : filesystem :=
  if present then fs w else snd generated.

(** Lines 27-34: the title and the provisioning of the certificate. *)
Definition provisioning : list event :=
  [Print "🎬 Head Tilt YouTube Controller - Local Server";
   Print (str_mul "=" 50);
   PathExists "cert.pem" present]
  ++ (if present then []
      else [Print (nl +++ "📝 Generating self-signed certificate...");
            Print "   (You'll need to accept the security warning in your browser)";
            System openssl_command (fst generated)]).

Definition w_provisioned : World :=
  mk_world files_then (open_socks w) (next_fd w).

(** The world once the listening socket exists. *)
Definition w_bound : World :=
  mk_world files_then (next_fd w :: open_socks w) (S (next_fd w)).

(** The certificate file as [ssl.wrap_socket] finds it. *)
Definition cert_then : file_status := stat files_then "./cert.pem".

Definition wrap_answer : option exn :=
  match cert_then with
  | Absent => Some FileNotFoundError
  | Unreadable => Some PermissionError
  | Readable => tls_load env
  end.

Definition listener : socket_obj := Tls (next_fd w) "./cert.pem" true.

(** Lines 57-60: the serve loop and its handler. *)
Definition serving : list event * outcome unit :=
  match serve_loop env with
  | Raised e =>
      if is_KeyboardInterrupt e then
        ([ServeForever listener (Raised e);
          Print (nl +++ nl +++ "👋 Server stopped")], Done tt)
      else ([ServeForever listener (Raised e)], Raised e)
  | r => ([ServeForever listener r], r)
  end.

Definition main_table : list event * World * outcome unit :=
  match http_bind env with
  | Some e =>
      (provisioning ++ [HTTPServer "" 8000 (Some e)], w_provisioned, Raised e)
  | None =>
      match wrap_answer with
      | Some e =>
          (provisioning
             ++ [HTTPServer "" 8000 None;
                 WrapSocket "./cert.pem" true cert_then (Some e)],
           w_bound, Raised e)
      | None =>
          let built :=
            provisioning
              ++ [HTTPServer "" 8000 None;
                  WrapSocket "./cert.pem" true cert_then None] in
          match get_local_ip env w_bound with
          | (t_ip, w_ip, Done ip) =>
              (built ++ t_ip
                 ++ trace_of (startup_report 8000 ip) env w_ip
                 ++ fst serving,
               w_ip, snd serving)
          | (t_ip, w_ip, Raised e) => (built ++ t_ip, w_ip, Raised e)
          | (t_ip, w_ip, Forever) => (built ++ t_ip, w_ip, Forever)
          end
      end
  end.

End Run.
End Summary.

(* ================================================================= *)
(** ** Properties *)

Import Runtime Server Obs Summary.

Ltac unfold_calls :=
  cbv [trace_of world_after result_of script main startup_report get_local_ip
       bind ret raise try_except bare answer print os_path_exists os_system
       HTTPServer_new ssl_wrap_socket socket_socket sock_connect
       sock_getsockname sock_close serve_forever descriptor
       httpd_socket server_address handler set_socket
       fst snd app].

(** *** The address lookup *)

Lemma release_head (s : fd) (l : list fd) : ~ In s (release s (s :: l)).
Proof.
  unfold release. intros H. apply filter_In in H. destruct H as [_ H].
  rewrite Nat.eqb_refl in H. discriminate.
Qed.

(** C1.  When a step of the address lookup fails (creating the socket,
    connecting it, reading its name or closing it), [get_local_ip]
    returns the string [localhost]; and no run of it ends with an
    exception. *)
Theorem get_local_ip_fallback (env : Env) (w : World) :
  (existsb failed (trace_of get_local_ip env w) = true ->
   result_of get_local_ip env w = Done "localhost"%string) /\
  (forall e, result_of get_local_ip env w <> Raised e) /\
  result_of get_local_ip env w <> Forever.
Proof.
  destruct env as [a sh hb tl us uc ug ucl sl].
  unfold_calls; cbn.
  destruct us; cbn.
  { repeat split; intros; discriminate. }
  destruct uc; cbn.
  { repeat split; intros; discriminate. }
  destruct ug as [e | [ip port]]; cbn.
  { repeat split; intros; discriminate. }
  destruct ucl; cbn; repeat split; intros; discriminate.
Qed.

Lemma get_local_ip_fallback_offline :
  result_of get_local_ip env_offline (boot with_cert) = Done "localhost"%string.
Proof.
  apply (proj1 (get_local_ip_fallback env_offline (boot with_cert))).
  reflexivity.
Defined.

(** C9.  When no step of the lookup fails, the calls are exactly:
    create a datagram socket, connect it to 8.8.8.8:80, read its name,
    close it; the close is the last call before the address is returned,
    and the socket is not open afterwards. *)
Theorem get_local_ip_closes (env : Env) (w : World) :
  existsb failed (trace_of get_local_ip env w) = false ->
  exists ip port,
    udp_getsockname env = inr (ip, port) /\
    trace_of get_local_ip env w =
      [SocketNew AF_INET SOCK_DGRAM None;
       SocketConnect (next_fd w) "8.8.8.8" 80 None;
       SocketGetsockname (next_fd w) (inr (ip, port));
       SocketClose (next_fd w) None] /\
    result_of get_local_ip env w = Done ip /\
    ~ In (next_fd w) (open_socks (world_after get_local_ip env w)).
Proof.
  destruct env as [a sh hb tl us uc ug ucl sl].
  unfold_calls; cbn.
  destruct us; cbn; [discriminate|].
  destruct uc; cbn; [discriminate|].
  destruct ug as [e | [ip port]]; cbn; [discriminate|].
  destruct ucl; cbn; [discriminate|].
  intros _. exists ip, port. repeat split.
  apply release_head.
Qed.

Lemma get_local_ip_closes_online :
  exists ip port,
    udp_getsockname env_ok = inr (ip, port) /\
    trace_of get_local_ip env_ok (boot with_cert) =
      [SocketNew AF_INET SOCK_DGRAM None;
       SocketConnect 3%nat "8.8.8.8" 80 None;
       SocketGetsockname 3%nat (inr (ip, port));
       SocketClose 3%nat None] /\
    result_of get_local_ip env_ok (boot with_cert) = Done ip /\
    ~ In 3%nat (open_socks (world_after get_local_ip env_ok (boot with_cert))).
Proof.
  apply (get_local_ip_closes env_ok (boot with_cert)). reflexivity.
Defined.

Lemma get_local_ip_run (env : Env) (w : World) :
  exists t w' ip,
    get_local_ip env w = (t, w', Done ip) /\
    forallb is_lookup t = true /\
    fs w' = fs w.
Proof.
  destruct env as [a sh hb tl us uc ug ucl sl].
  unfold_calls; cbn.
  destruct us; cbn; [eauto 10|].
  destruct uc; cbn; [eauto 10|].
  destruct ug as [e | [ip port]]; cbn; [eauto 10|].
  destruct ucl; cbn; eauto 10.
Qed.

(** *** Running [main]

    [run_main] unfolds the script and splits on every answer of the
    environment, in the order in which the script asks. *)

Ltac stuck_atom x :=
  first
    [ is_var x
    | match x with
      | ?f _ => is_var f
      | ?f _ _ => is_var f
      end ].

Ltac split_on x :=
  first
    [ is_var x; destruct x
    | let p := fresh "ans" in remember x as p eqn:? in *; destruct p ].

Ltac step_case :=
  match goal with
  | |- context [is_KeyboardInterrupt ?e] => is_var e; destruct e
  | |- context [match ?x with _ => _ end] => stuck_atom x; split_on x
  | H : context [match ?x with _ => _ end] |- _ => stuck_atom x; split_on x
  end.

Ltac run_main env w :=
  destruct env as [args sh hb tl us uc ug ucl sl];
  destruct w as [files socks fresh];
  cbv in *;
  repeat (step_case; cbv beta iota zeta in *).

Arguments openssl_command : simpl never.

Lemma main_run (env : Env) (w : World) : main env w = main_table env w.
Proof.
  unfold main_table, provisioning, w_provisioned, w_bound, wrap_answer,
    cert_then, files_then, serving, listener, present, generated.
  run_main env w; reflexivity.
Qed.

(** The three ways a run of [main] can go: the bind fails, the TLS wrap
    fails, or the server starts. *)
Lemma main_cases (env : Env) (w : World) :
  (exists e,
     http_bind env = Some e /\
     main env w =
       (provisioning env w ++ [HTTPServer "" 8000 (Some e)],
        w_provisioned env w, Raised e)) \/
  (exists e,
     http_bind env = None /\ wrap_answer env w = Some e /\
     main env w =
       (provisioning env w
          ++ [HTTPServer "" 8000 None;
              WrapSocket "./cert.pem" true (cert_then env w) (Some e)],
        w_bound env w, Raised e)) \/
  (exists t_ip w_ip ip,
     http_bind env = None /\ wrap_answer env w = None /\
     get_local_ip env (w_bound env w) = (t_ip, w_ip, Done ip) /\
     forallb is_lookup t_ip = true /\
     main env w =
       ((provisioning env w
           ++ [HTTPServer "" 8000 None;
               WrapSocket "./cert.pem" true (cert_then env w) None])
          ++ t_ip
          ++ trace_of (startup_report 8000 ip) env w_ip
          ++ fst (serving env w),
        w_ip, snd (serving env w))).
Proof.
  rewrite main_run. unfold main_table.
  destruct (http_bind env) as [e|]; [left; eauto|].
  destruct (wrap_answer env w) as [e|]; [right; left; eauto|].
  right; right.
  destruct (get_local_ip_run env (w_bound env w)) as (t & w' & ip & E & L & _).
  rewrite E. exists t, w', ip. auto.
Qed.

(** *** The pieces of a run *)

Lemma startup_report_prints (PORT : Z) (ip : string) (env : Env) (w : World) :
  forallb is_print (trace_of (startup_report PORT ip) env w) = true /\
  world_after (startup_report PORT ip) env w = w /\
  result_of (startup_report PORT ip) env w = Done tt.
Proof. repeat split. Qed.

Lemma forallb_In {A} (P : A -> bool) (l : list A) (x : A) :
  forallb P l = true -> In x l -> P x = true.
Proof. intros H. apply (proj1 (forallb_forall P l) H). Qed.

Lemma provisioning_events (env : Env) (w : World) (ev : event) :
  In ev (provisioning env w) ->
  (is_print ev = true /\ is_report ev = false) \/
  ev = PathExists "cert.pem" (present w) \/
  (present w = false /\
   ev = System openssl_command (fst (generated env w))).
Proof.
  unfold provisioning. destruct (present w); cbn [app In];
    intros H; repeat (destruct H as [<- | H]; [auto|]); contradiction.
Qed.

Lemma serving_events (env : Env) (w : World) (ev : event) :
  In ev (fst (serving env w)) ->
  ev = ServeForever (listener w) (serve_loop env) \/
  (serve_loop env = Raised KeyboardInterrupt /\
   ev = Print (nl +++ nl +++ "👋 Server stopped")).
Proof.
  unfold serving. destruct (serve_loop env) as [[]|e|]; try destruct e;
    cbn [fst In is_KeyboardInterrupt];
    intros H; repeat (destruct H as [<- | H]; [auto|]); contradiction.
Qed.

(** Where an event of a run of [main] comes from. *)
Lemma main_event (env : Env) (w : World) (ev : event) :
  In ev (trace_of main env w) ->
  In ev (provisioning env w) \/
  ev = HTTPServer "" 8000 (http_bind env) \/
  (http_bind env = None /\
   ev = WrapSocket "./cert.pem" true (cert_then env w) (wrap_answer env w)) \/
  (http_bind env = None /\ wrap_answer env w = None /\
   (is_lookup ev = true \/
    (is_print ev = true /\
     exists ip w', In ev (trace_of (startup_report 8000 ip) env w')) \/
    In ev (fst (serving env w)))).
Proof.
  unfold trace_of.
  destruct (main_cases env w) as
    [(e & Hb & ->) | [(e & Hb & Hw & ->) | (t & w' & ip & Hb & Hw & _ & L & ->)]];
    cbn [fst]; intros H.
  - apply in_app_or in H. destruct H as [H | [<- | []]]; [auto|].
    rewrite Hb; auto.
  - apply in_app_or in H. destruct H as [H | [<- | [<- | []]]]; [auto| |].
    + rewrite Hb; auto.
    + rewrite Hw; auto.
  - apply in_app_or in H. destruct H as [H | H].
    + apply in_app_or in H. destruct H as [H | [<- | [<- | []]]]; [auto| |].
      * rewrite Hb; auto.
      * rewrite Hw; auto.
    + do 3 right. split; [assumption|]. split; [assumption|].
      apply in_app_or in H. destruct H as [H | H].
      * left. eapply forallb_In; eassumption.
      * apply in_app_or in H. destruct H as [H | H]; [|auto].
        right; left. split; [|eauto].
        eapply forallb_In; [|exact H].
        apply startup_report_prints.
Qed.

(** The only [os.system] call of a run is the certificate command, and
    it is made only when [cert.pem] was not found. *)
Lemma system_event (env : Env) (w : World) (cmd : string) (status : Z) :
  In (System cmd status) (trace_of main env w) ->
  present w = false /\
  cmd = openssl_command /\
  status = fst (generated env w) /\
  In (PathExists "cert.pem" false) (trace_of main env w).
Proof.
  intros H. pose proof H as H0. apply main_event in H.
  destruct H as [H | [H | [[_ H] | (_ & _ & [H | [[H _] | H]])]]];
    try discriminate.
  - pose proof H as Hp.
    apply provisioning_events in H.
    destruct H as [[H _] | [H | [Hno H]]]; try discriminate.
    injection H as -> ->. repeat split; try assumption.
    unfold trace_of. rewrite main_run. unfold main_table.
    assert (Hin : In (PathExists "cert.pem" false) (provisioning env w)).
    { unfold provisioning. rewrite Hno. cbn. tauto. }
    destruct (http_bind env); [cbn [fst]; apply in_or_app; auto|].
    destruct (wrap_answer env w); [cbn [fst]; apply in_or_app; auto|].
    destruct (get_local_ip env (w_bound env w)) as [[t w'] [ip|e|]];
      cbn [fst]; apply in_or_app; left; apply in_or_app; auto.
  - apply serving_events in H. destruct H as [H | [_ H]]; discriminate.
Qed.

(** *** Certificate provisioning *)

(** C2.  When [cert.pem] exists at startup, [main] never calls
    [os.system]; the command is run only in runs that found the file
    absent. *)
Theorem present_cert_not_regenerated (env : Env) (w : World) :
  (exists_on (fs w) "cert.pem" = true ->
   existsb is_system (trace_of main env w) = false) /\
  (forall cmd status,
     In (System cmd status) (trace_of main env w) ->
     exists_on (fs w) "cert.pem" = false).
Proof.
  assert (Honly : forall cmd status,
             In (System cmd status) (trace_of main env w) ->
             exists_on (fs w) "cert.pem" = false).
  { intros cmd status H. apply system_event in H. apply H. }
  split; [|exact Honly].
  intros Hex.
  destruct (existsb is_system (trace_of main env w)) eqn:E; [|reflexivity].
  apply existsb_exists in E. destruct E as (ev & Hin & Hsys).
  destruct ev; try discriminate.
  rewrite (Honly _ _ Hin) in Hex. discriminate.
Qed.

Lemma present_cert_not_regenerated_run :
  existsb is_system (trace_of main env_ok (boot with_cert)) = false.
Proof.
  apply (proj1 (present_cert_not_regenerated env_ok (boot with_cert))).
  reflexivity.
Defined.

(** The words of the command line. *)
Lemma openssl_command_words :
  sh_words openssl_command =
    ["openssl"; "req"; "-new"; "-x509"; "-keyout"; "cert.pem";
     "-out"; "cert.pem"; "-days"; "365"; "-nodes";
     "-subj"; "/CN=localhost"]%string.
Proof. reflexivity. Qed.

(** C3.  Every command [main] hands to [os.system] is an
    [openssl req -new -x509] request (a self-signed certificate) valid
    for 365 days, with subject [/CN=localhost], with [-nodes] (the key is
    not encrypted), and with [-keyout] and [-out] naming the same file
    [cert.pem], the file [main] looked for and later loads. *)
Theorem generation_command (env : Env) (w : World) (cmd : string) (status : Z) :
  In (System cmd status) (trace_of main env w) ->
  firstn 2 (sh_words cmd) = ["openssl"; "req"]%string /\
  has_flag "-new" (sh_words cmd) = true /\
  has_flag "-x509" (sh_words cmd) = true /\
  option_value "-days" (sh_words cmd) = Some "365"%string /\
  option_value "-subj" (sh_words cmd) = Some "/CN=localhost"%string /\
  has_flag "-nodes" (sh_words cmd) = true /\
  option_value "-keyout" (sh_words cmd) = Some "cert.pem"%string /\
  option_value "-out" (sh_words cmd) = option_value "-keyout" (sh_words cmd) /\
  In (PathExists "cert.pem" false) (trace_of main env w) /\
  resolve "./cert.pem" = resolve "cert.pem".
Proof.
  intros H. apply system_event in H. destruct H as (_ & -> & _ & Hex).
  rewrite openssl_command_words. repeat split; try reflexivity. exact Hex.
Qed.

Lemma generation_command_run :
  option_value "-days" (sh_words openssl_command) = Some "365"%string /\
  option_value "-out" (sh_words openssl_command)
    = option_value "-keyout" (sh_words openssl_command).
Proof.
  assert (H : In (System openssl_command 32512)
                 (trace_of main env_no_tool (boot no_files))).
  { cbn. tauto. }
  pose proof (generation_command env_no_tool (boot no_files) _ _ H) as G.
  split; apply G.
Defined.

(** The only TLS wrap of a run follows a successful bind and reads
    [./cert.pem] as provisioning left it. *)
Lemma wrap_event (env : Env) (w : World)
      (cf : string) (ss : bool) (st : file_status) (res : option exn) :
  In (WrapSocket cf ss st res) (trace_of main env w) ->
  http_bind env = None /\
  cf = "./cert.pem"%string /\ ss = true /\
  st = cert_then env w /\ res = wrap_answer env w.
Proof.
  intros H. apply main_event in H.
  destruct H as [H | [H | [[Hb H] | (_ & _ & [H | [[H _] | H]])]]];
    try discriminate.
  - apply provisioning_events in H.
    destruct H as [[H _] | [H | [_ H]]]; discriminate.
  - injection H as -> -> -> ->. auto.
  - apply serving_events in H. destruct H as [H | [_ H]]; discriminate.
Qed.

(** C8, as the code has it.  At the moment the listening socket is
    wrapped, [cert.pem] is in the state it had at startup when it existed
    then, and otherwise in the state the certificate command left it in.
    So it is readable at the wrap exactly when it was readable at startup
    or it was absent and the command left a readable file.  When it is
    missing at the wrap (absent at startup, not produced by the command)
    the wrap is attempted all the same and raises [FileNotFoundError],
    which ends [main]. *)
Theorem cert_state_at_wrap (env : Env) (w : World)
      (cf : string) (ss : bool) (st : file_status) (res : option exn) :
  In (WrapSocket cf ss st res) (trace_of main env w) ->
  st = (if exists_on (fs w) "cert.pem" then stat (fs w) "cert.pem"
        else stat (snd (shell env openssl_command (fs w))) "cert.pem") /\
  (st = Readable <->
   stat (fs w) "cert.pem" = Readable \/
   (stat (fs w) "cert.pem" = Absent /\
    stat (snd (shell env openssl_command (fs w))) "cert.pem" = Readable)) /\
  (st = Absent ->
   res = Some FileNotFoundError /\
   result_of main env w = Raised FileNotFoundError).
Proof.
  intros H. apply wrap_event in H. destruct H as (Hb & _ & _ & -> & ->).
  assert (Hst : cert_then env w =
                if exists_on (fs w) "cert.pem" then stat (fs w) "cert.pem"
                else stat (snd (shell env openssl_command (fs w))) "cert.pem").
  { unfold cert_then, files_then, present, generated.
    destruct (exists_on (fs w) "cert.pem"); reflexivity. }
  split; [exact Hst|]. split.
  - rewrite Hst. unfold exists_on.
    destruct (stat (fs w) "cert.pem");
      [ | split; [discriminate | intros [K | [K _]]; discriminate]
        | split; auto ].
    split; [auto | intros [K | [_ K]]; [discriminate | exact K]].
  - intros Habs.
    assert (Hw : wrap_answer env w = Some FileNotFoundError).
    { unfold wrap_answer. rewrite Habs. reflexivity. }
    split; [exact Hw|].
    unfold result_of. rewrite main_run. unfold main_table.
    rewrite Hb, Hw. reflexivity.
Qed.

Lemma cert_state_at_wrap_no_tool :
  Absent = (if exists_on no_files "cert.pem" then stat no_files "cert.pem"
            else stat (snd (openssl_missing openssl_command no_files)) "cert.pem") /\
  result_of main env_no_tool (boot no_files) = Raised FileNotFoundError.
Proof.
  assert (H : In (WrapSocket "./cert.pem" true Absent (Some FileNotFoundError))
                 (trace_of main env_no_tool (boot no_files))).
  { cbn. tauto. }
  pose proof (cert_state_at_wrap env_no_tool (boot no_files) _ _ _ _ H) as G.
  split; [apply G | apply G; reflexivity].
Defined.

(** C8 as stated fails: with no certificate and no [openssl], the wrap is
    reached while [cert.pem] is missing. *)
Lemma wrap_reached_without_cert :
  ~ (forall env w cf ss st res,
       In (WrapSocket cf ss st res) (trace_of main env w) -> st = Readable).
Proof.
  intros H.
  specialize (H env_no_tool (boot no_files) "./cert.pem"%string true Absent
                (Some FileNotFoundError)).
  assert (K : Absent = Readable) by (apply H; cbn; tauto).
  discriminate K.
Qed.

(** *** The server *)


Lemma bind_event (env : Env) (w : World)
      (host : string) (port : Z) (res : option exn) :
  In (HTTPServer host port res) (trace_of main env w) ->
  host = ""%string /\ port = 8000 /\ res = http_bind env.
Proof.
  intros H. apply main_event in H.
  destruct H as [H | [H | [[Hb H] | (_ & _ & [H | [[H _] | H]])]]];
    try discriminate.
  - apply provisioning_events in H.
    destruct H as [[H _] | [H | [_ H]]]; discriminate.
  - injection H as -> -> ->. auto.
  - apply serving_events in H. destruct H as [H | [_ H]]; discriminate.
Qed.

Lemma bind_reached (env : Env) (w : World) :
  In (HTTPServer "" 8000 (http_bind env)) (trace_of main env w).
Proof.
  unfold trace_of.
  destruct (main_cases env w) as
    [(e & Hb & ->) | [(e & Hb & Hw & ->) | (t & w' & ip & Hb & Hw & _ & L & ->)]];
    cbn [fst]; rewrite Hb.
  - apply in_or_app. right. cbn. auto.
  - apply in_or_app. right. cbn. auto.
  - apply in_or_app. left. apply in_or_app. right. cbn. auto.
Qed.





(** *** Order of the startup steps *)

Lemma provisioning_quiet (env : Env) (w : World) :
  forallb quiet (provisioning env w) = true.
Proof. unfold provisioning. destruct (present w); reflexivity. Qed.

Lemma quiet_In (l : list event) (ev : event) :
  forallb quiet l = true -> In ev l -> is_lookup ev || is_report ev = false.
Proof.
  intros H Hin. apply (forallb_In _ _ _ H) in Hin.
  unfold quiet in Hin. now destruct (is_lookup ev || is_report ev).
Qed.

(** In a list that starts with a quiet segment, whatever comes before a
    loud element includes that segment. *)
Lemma quiet_prefix (built rest pre post : list event) (ev : event) :
  built ++ rest = pre ++ ev :: post ->
  forallb quiet built = true ->
  is_lookup ev || is_report ev = true ->
  exists mid, pre = built ++ mid.
Proof.
  revert pre. induction built as [|b built IH]; intros pre E Hq Hev.
  - exists pre. reflexivity.
  - cbn in Hq. apply andb_true_iff in Hq. destruct Hq as [Hb Hq].
    destruct pre as [|p pre]; cbn in E; injection E as -> E.
    + unfold quiet in Hb. rewrite Hev in Hb. discriminate.
    + destruct (IH pre E Hq Hev) as [mid ->]. exists mid. reflexivity.
Qed.

Lemma wrap_answer_ok (env : Env) (w : World) :
  wrap_answer env w = None -> cert_then env w = Readable.
Proof. unfold wrap_answer. destruct (cert_then env w); congruence. Qed.

(** C10.  Whatever precedes a call of the address lookup or a report
    line (the banner, a URL) in a run of [main] contains the successful
    construction of the server on [('', 8000)] and the successful TLS
    wrap.  So when the construction or the wrap raises, [main] ends with
    that exception and its run has no lookup and no report line. *)
Theorem server_ready_before_report (env : Env) (w : World) :
  (forall pre ev post,
     trace_of main env w = pre ++ ev :: post ->
     is_lookup ev || is_report ev = true ->
     In (HTTPServer "" 8000 None) pre /\
     In (WrapSocket "./cert.pem" true Readable None) pre) /\
  (forall ev e,
     In ev (trace_of main env w) ->
     ev = HTTPServer "" 8000 (Some e) \/
     (exists st, ev = WrapSocket "./cert.pem" true st (Some e)) ->
     result_of main env w = Raised e /\
     forall ev', In ev' (trace_of main env w) ->
                 is_lookup ev' || is_report ev' = false).
Proof.
  pose proof (provisioning_quiet env w) as Hq.
  split.
  - intros pre ev post E Hev.
    assert (Hin : In ev (trace_of main env w))
      by (rewrite E; apply in_or_app; right; left; reflexivity).
    unfold trace_of in *.
    destruct (main_cases env w) as
      [(e & Hb & R) | [(e & Hb & Hw & R) | (t & w' & ip & Hb & Hw & _ & L & R)]];
      rewrite R in *; cbn [fst] in *.
    + assert (K : forallb quiet (provisioning env w ++ [HTTPServer "" 8000 (Some e)])
                  = true) by (rewrite forallb_app, Hq; reflexivity).
      rewrite (quiet_In _ _ K Hin) in Hev. discriminate.
    + assert (K : forallb quiet
                    (provisioning env w
                       ++ [HTTPServer "" 8000 None;
                           WrapSocket "./cert.pem" true (cert_then env w) (Some e)])
                  = true) by (rewrite forallb_app, Hq; reflexivity).
      rewrite (quiet_In _ _ K Hin) in Hev. discriminate.
    + rewrite (wrap_answer_ok _ _ Hw) in E.
      apply quiet_prefix in E; [|rewrite forallb_app, Hq; reflexivity|exact Hev].
      destruct E as [mid ->].
      split; apply in_or_app; left; apply in_or_app; right; cbn; auto.
  - intros ev e Hin Hev.
    assert (Hcase : (http_bind env = Some e) \/
                    (http_bind env = None /\ wrap_answer env w = Some e)).
    { destruct Hev as [-> | [st ->]].
      - apply bind_event in Hin. left. symmetry. apply Hin.
      - apply wrap_event in Hin. right. destruct Hin as (Hb & _ & _ & _ & Hw).
        auto. }
    clear Hin Hev. unfold result_of, trace_of.
    destruct (main_cases env w) as
      [(e0 & Hb & R) | [(e0 & Hb & Hw & R) | (t & w' & ip & Hb & Hw & _ & L & R)]];
      rewrite R; cbn [fst snd];
      destruct Hcase as [Hb' | [Hb' Hw']]; try congruence.
    + split; [congruence|]. intros ev'. apply quiet_In.
      rewrite forallb_app, Hq. reflexivity.
    + split; [congruence|]. intros ev'. apply quiet_In.
      rewrite forallb_app, Hq. reflexivity.
Qed.

Lemma server_ready_before_report_busy :
  result_of main env_port_busy (boot no_files) = Raised OSError /\
  forall ev', In ev' (trace_of main env_port_busy (boot no_files)) ->
              is_lookup ev' || is_report ev' = false.
Proof.
  apply (proj2 (server_ready_before_report env_port_busy (boot no_files))
               (HTTPServer "" 8000 (Some OSError)) OSError).
  - cbn. tauto.
  - left. reflexivity.
Defined.

(** *** Exceptions in [main] *)

Lemma lookup_not_raised (ev : event) :
  is_lookup ev = true -> raised_in_main ev = None.
Proof. destruct ev; cbn; congruence. Qed.

Lemma print_not_raised (ev : event) :
  is_print ev = true -> raised_in_main ev = None.
Proof. destruct ev; cbn; congruence. Qed.

(** C5.  An exception raised by a call of [main] is handled in one case
    only: a [KeyboardInterrupt] out of [serve_forever]; then the farewell
    is printed and [main] returns.  In every other case (another
    exception out of the serve loop, or any exception, interrupts
    included, out of the server construction or the TLS wrap) the failed
    call is the last of the run and [main] ends with that exception. *)
Theorem only_interrupt_is_handled (env : Env) (w : World) (ev : event) (e : exn) :
  In ev (trace_of main env w) ->
  raised_in_main ev = Some e ->
  (is_serve ev && is_KeyboardInterrupt e = true ->
   result_of main env w = Done tt /\
   exists t, trace_of main env w
             = t ++ [ev; Print (nl +++ nl +++ "👋 Server stopped")]) /\
  (is_serve ev && is_KeyboardInterrupt e = false ->
   result_of main env w = Raised e /\
   exists t, trace_of main env w = t ++ [ev]).
Proof.
  intros Hin Hr. pose proof Hin as H. apply main_event in H.
  unfold result_of, trace_of.
  destruct H as [H | [H | [[Hb H] | (Hb & Hw & [H | [[H _] | H]])]]].
  - apply provisioning_events in H.
    destruct H as [[H _] | [-> | [_ ->]]]; try discriminate.
    rewrite (print_not_raised _ H) in Hr. discriminate.
  - subst ev. cbn in Hr. destruct (http_bind env) as [e0|] eqn:Hb; [|discriminate].
    injection Hr as ->.
    destruct (main_cases env w) as
      [(e0 & Hb' & R) | [(e0 & Hb' & _ & R) | (t & w' & ip & Hb' & _ & _ & _ & R)]];
      try congruence.
    rewrite R; cbn [fst snd]. replace e0 with e by congruence.
    split; [discriminate|]. intros _. eauto.
  - subst ev. cbn in Hr. destruct (wrap_answer env w) as [e0|] eqn:Hw; [|discriminate].
    injection Hr as ->.
    destruct (main_cases env w) as
      [(e0 & Hb' & R) | [(e0 & Hb' & Hw' & R) | (t & w' & ip & Hb' & Hw' & _ & _ & R)]];
      try congruence.
    rewrite R; cbn [fst snd]. replace e0 with e by congruence.
    split; [discriminate|]. intros _. split; [reflexivity|].
    exists (provisioning env w ++ [HTTPServer "" 8000 None]).
    rewrite <- app_assoc. reflexivity.
  - rewrite (lookup_not_raised _ H) in Hr. discriminate.
  - rewrite (print_not_raised _ H) in Hr. discriminate.
  - apply serving_events in H. destruct H as [-> | [_ ->]]; [|discriminate].
    cbn in Hr. destruct (serve_loop env) as [[]|e0|] eqn:Hs; try discriminate.
    injection Hr as ->.
    destruct (main_cases env w) as
      [(e0 & Hb' & R) | [(e0 & Hb' & Hw' & R) | (t & w' & ip & Hb' & Hw' & _ & _ & R)]];
      try congruence.
    rewrite R; cbn [fst snd is_serve andb]. unfold serving. rewrite Hs.
    destruct (is_KeyboardInterrupt e); cbn [fst snd].
    + split; [|discriminate]. intros _. split; [reflexivity|].
      rewrite !app_assoc. eauto.
    + split; [discriminate|]. intros _. split; [reflexivity|].
      rewrite !app_assoc. eauto.
Qed.

Lemma only_interrupt_is_handled_ctrl_c :
  result_of main env_ok (boot with_cert) = Done tt /\
  exists t, trace_of main env_ok (boot with_cert)
            = t ++ [ServeForever (Tls 3%nat "./cert.pem" true)
                                 (Raised KeyboardInterrupt);
                    Print (nl +++ nl +++ "👋 Server stopped")].
Proof.
  apply (proj1 (only_interrupt_is_handled env_ok (boot with_cert)
                  (ServeForever (Tls 3%nat "./cert.pem" true)
                                (Raised KeyboardInterrupt))
                  KeyboardInterrupt
                  ltac:(cbn; tauto) eq_refl)).
  reflexivity.
Defined.

(** *** The exit status of the certificate command *)

Lemma provisioning_status (k : Z) (env : Env) (w : World) :
  map blank_status (provisioning (with_status k env) w)
  = map blank_status (provisioning env w).
Proof. unfold provisioning. destruct (present w); reflexivity. Qed.

(** A run does not depend on the exit status: the outcome is the same
    and the calls are the same, the reported status apart. *)
Lemma main_status (k : Z) (env : Env) (w : World) :
  result_of main (with_status k env) w = result_of main env w /\
  map blank_status (trace_of main (with_status k env) w)
  = map blank_status (trace_of main env w).
Proof.
  pose proof (provisioning_status k env w) as Hp.
  unfold result_of, trace_of. rewrite !main_run. unfold main_table.
  change (http_bind (with_status k env)) with (http_bind env).
  change (wrap_answer (with_status k env) w) with (wrap_answer env w).
  change (cert_then (with_status k env) w) with (cert_then env w).
  change (w_bound (with_status k env) w) with (w_bound env w).
  change (serving (with_status k env) w) with (serving env w).
  change (get_local_ip (with_status k env) (w_bound env w))
    with (get_local_ip env (w_bound env w)).
  destruct (http_bind env).
  { cbn [fst snd]. rewrite !map_app, Hp. auto. }
  destruct (wrap_answer env w).
  { cbn [fst snd]. rewrite !map_app, Hp. auto. }
  destruct (get_local_ip env (w_bound env w)) as [[t w'] [ip|e|]];
    cbn [fst snd]; rewrite !map_app, Hp; auto.
Qed.

(** C4.  When [cert.pem] is absent and the certificate command fails,
    [main] does not look at the failure: the run is the same for every
    exit status, and the call that follows [os.system] is the
    construction of the server.  When that succeeds the TLS wrap follows,
    and a certificate file that is still missing makes the wrap raise
    [FileNotFoundError], with which [main] ends. *)
Theorem generation_failure_not_checked (env : Env) (w : World) :
  exists_on (fs w) "cert.pem" = false ->
  fst (shell env openssl_command (fs w)) <> 0 ->
  (forall k,
     result_of main (with_status k env) w = result_of main env w /\
     map blank_status (trace_of main (with_status k env) w)
     = map blank_status (trace_of main env w)) /\
  (exists pre post,
     trace_of main env w =
       pre ++ System openssl_command (fst (shell env openssl_command (fs w)))
           :: HTTPServer "" 8000 (http_bind env) :: post) /\
  (http_bind env = None ->
   stat (snd (shell env openssl_command (fs w))) "cert.pem" = Absent ->
   result_of main env w = Raised FileNotFoundError /\
   exists pre,
     trace_of main env w =
       pre ++ [System openssl_command (fst (shell env openssl_command (fs w)));
               HTTPServer "" 8000 None;
               WrapSocket "./cert.pem" true Absent (Some FileNotFoundError)]).
Proof.
  intros Hno _.
  assert (Hprov : provisioning env w =
                  firstn 5 (provisioning env w)
                    ++ [System openssl_command
                               (fst (shell env openssl_command (fs w)))]).
  { unfold provisioning, present. rewrite Hno. reflexivity. }
  split; [intros k; apply main_status|]. split.
  - unfold trace_of.
    destruct (main_cases env w) as
      [(e & Hb & R) | [(e & Hb & Hw & R) | (t & w' & ip & Hb & Hw & _ & L & R)]];
      rewrite R, Hb, Hprov; cbn [fst]; rewrite <- ?app_assoc;
      cbn [app]; eauto.
  - intros Hb Habs.
    assert (Hc : cert_then env w = Absent).
    { unfold cert_then, files_then, present, generated. rewrite Hno. exact Habs. }
    assert (Hw : wrap_answer env w = Some FileNotFoundError).
    { unfold wrap_answer. rewrite Hc. reflexivity. }
    unfold result_of, trace_of. rewrite main_run. unfold main_table.
    rewrite Hb, Hw, Hc, Hprov. cbn [fst snd]. split; [reflexivity|].
    rewrite <- app_assoc. cbn [app]. eauto.
Qed.

Lemma generation_failure_not_checked_no_tool :
  result_of main env_no_tool (boot no_files) = Raised FileNotFoundError /\
  exists pre,
    trace_of main env_no_tool (boot no_files) =
      pre ++ [System openssl_command 32512;
              HTTPServer "" 8000 None;
              WrapSocket "./cert.pem" true Absent (Some FileNotFoundError)].
Proof.
  apply (proj2 (proj2 (generation_failure_not_checked
                         env_no_tool (boot no_files)
                         eq_refl ltac:(discriminate)))); reflexivity.
Defined.

(** *** The startup report *)

(** C7.  When the server has started (the socket is wrapped), the run
    goes on with the address lookup, then with the report, then with the
    serve loop.  The report prints the local URL
    [https://localhost:8000], the LAN URL [https://<ip>:8000] with the
    very address [get_local_ip] returned, and the note on the
    certificate warning.  It is made of [print] calls only, leaves the
    world as it was and returns. *)
Theorem startup_report_urls (env : Env) (w : World)
      (cf : string) (ss : bool) (st : file_status) :
  In (WrapSocket cf ss st None) (trace_of main env w) ->
  exists pre w1 ip post,
    result_of get_local_ip env w1 = Done ip /\
    trace_of main env w =
      pre ++ trace_of get_local_ip env w1
          ++ trace_of (startup_report 8000 ip) env (world_after get_local_ip env w1)
          ++ ServeForever (Tls (next_fd w) "./cert.pem" true) (serve_loop env)
          :: post /\
    (forall w2,
       printed (trace_of (startup_report 8000 ip) env w2) =
         [nl +++ "✅ Server started!";
          nl +++ "📱 Access on this device:";
          "   https://localhost:8000";
          nl +++ "📱 Access on mobile (same WiFi):";
          "   https://" +++ ip +++ ":8000";
          nl +++ "⚠️  Note: You'll need to accept the self-signed certificate warning";
          "    in your browser (this is normal for local development)" +++ nl;
          "Press Ctrl+C to stop the server" +++ nl;
          str_mul "=" 50]%string /\
       forallb is_print (trace_of (startup_report 8000 ip) env w2) = true /\
       world_after (startup_report 8000 ip) env w2 = w2 /\
       result_of (startup_report 8000 ip) env w2 = Done tt).
Proof.
  intros H. apply wrap_event in H. destruct H as (Hb & _ & _ & _ & Hw).
  symmetry in Hw. unfold trace_of at 1.
  destruct (main_cases env w) as
    [(e & Hb' & R) | [(e & Hb' & Hw' & R) | (t & w' & ip & _ & _ & E & _ & R)]];
    try congruence.
  rewrite R; cbn [fst].
  assert (Hs : exists post,
             fst (serving env w)
             = ServeForever (Tls (next_fd w) "./cert.pem" true) (serve_loop env)
                 :: post).
  { unfold serving, listener.
    destruct (serve_loop env) as [[]|e|]; try destruct (is_KeyboardInterrupt e);
      cbn [fst]; eauto. }
  destruct Hs as [post Hs]. rewrite Hs.
  eexists _, (w_bound env w), ip, post.
  unfold result_of, trace_of, world_after. rewrite E. cbn [fst snd].
  split; [reflexivity|]. split; [reflexivity|].
  intros w2. repeat split.
Qed.

Lemma startup_report_urls_run :
  exists pre w1 ip post,
    result_of get_local_ip env_ok w1 = Done ip /\
    trace_of main env_ok (boot with_cert) =
      pre ++ trace_of get_local_ip env_ok w1
          ++ trace_of (startup_report 8000 ip) env_ok
                      (world_after get_local_ip env_ok w1)
          ++ ServeForever (Tls 3%nat "./cert.pem" true) (Raised KeyboardInterrupt)
          :: post /\
    (forall w2,
       printed (trace_of (startup_report 8000 ip) env_ok w2) =
         [nl +++ "✅ Server started!";
          nl +++ "📱 Access on this device:";
          "   https://localhost:8000";
          nl +++ "📱 Access on mobile (same WiFi):";
          "   https://" +++ ip +++ ":8000";
          nl +++ "⚠️  Note: You'll need to accept the self-signed certificate warning";
          "    in your browser (this is normal for local development)" +++ nl;
          "Press Ctrl+C to stop the server" +++ nl;
          str_mul "=" 50]%string /\
       forallb is_print (trace_of (startup_report 8000 ip) env_ok w2) = true /\
       world_after (startup_report 8000 ip) env_ok w2 = w2 /\
       result_of (startup_report 8000 ip) env_ok w2 = Done tt).
Proof.
  apply (startup_report_urls env_ok (boot with_cert) "./cert.pem" true Readable).
  cbn. tauto.
Defined.

(* ================================================================= *)
(** ** Further properties of the address lookup *)

(** X1.  When the socket exists and [connect] or [getsockname] raises, the
    handler returns at once: [get_local_ip] makes no [close] call on
    that path (the socket is left to the runtime). *)
Theorem get_local_ip_no_close_on_failure (env : Env) (w : World) :
  udp_socket env = None ->
  udp_connect env <> None \/ (exists e, udp_getsockname env = inl e) ->
  count is_close (trace_of get_local_ip env w) = 0%nat /\
  In (SocketNew AF_INET SOCK_DGRAM None) (trace_of get_local_ip env w) /\
  result_of get_local_ip env w = Done "localhost"%string.
Proof.
  destruct env as [a sh hb tl us uc ug ucl sl].
  cbn [udp_socket udp_connect udp_getsockname].
  intros -> H. unfold_calls; cbn.
  destruct uc; cbn; [auto|].
  destruct H as [H | [e ->]]; [congruence|]. cbn. auto.
Qed.

Lemma get_local_ip_no_close_on_failure_offline :
  count is_close (trace_of get_local_ip env_offline (boot with_cert)) = 0%nat /\
  In (SocketNew AF_INET SOCK_DGRAM None)
     (trace_of get_local_ip env_offline (boot with_cert)) /\
  result_of get_local_ip env_offline (boot with_cert) = Done "localhost"%string.
Proof.
  apply (get_local_ip_no_close_on_failure env_offline (boot with_cert)).
  - reflexivity.
  - left. discriminate.
Defined.

(** X2.  [get_local_ip] only makes socket calls: it prints nothing, tests no
    path, runs no command, and leaves the files as they were, whether
    the lookup works or not. *)
Theorem get_local_ip_frame (env : Env) (w : World) :
  forallb is_lookup (trace_of get_local_ip env w) = true /\
  printed (trace_of get_local_ip env w) = [] /\
  fs (world_after get_local_ip env w) = fs w.
Proof.
  destruct env as [a sh hb tl us uc ug ucl sl].
  unfold_calls; cbn.
  destruct us; cbn; [auto|].
  destruct uc; cbn; [auto|].
  destruct ug as [e | [ip port]]; cbn; [auto|].
  destruct ucl; cbn; auto.
Qed.

Lemma release_fresh (s : fd) (l : list fd) :
  ~ In s l -> release s (s :: l) = l.
Proof.
  intros Hs. unfold release. cbn. rewrite Nat.eqb_refl. cbn.
  induction l as [|d l IH]; [reflexivity|]. cbn.
  destruct (Nat.eqb d s) eqn:E.
  - apply Nat.eqb_eq in E. subst d. exfalso. apply Hs. left. reflexivity.
  - cbn. rewrite IH; [reflexivity|]. intros K. apply Hs. right. exact K.
Qed.

(** X3.  A lookup in which no step fails gives back every resource it took:
    from a tidy world, the open sockets and the files afterwards are
    those before, and the world is still tidy. *)
Theorem get_local_ip_restores_sockets (env : Env) (w : World) :
  tidy w ->
  existsb failed (trace_of get_local_ip env w) = false ->
  open_socks (world_after get_local_ip env w) = open_socks w /\
  fs (world_after get_local_ip env w) = fs w /\
  tidy (world_after get_local_ip env w).
Proof.
  intros Ht.
  assert (Hfresh : ~ In (next_fd w) (open_socks w)).
  { intros K. apply Ht in K. lia. }
  destruct env as [a sh hb tl us uc ug ucl sl].
  unfold_calls; cbn.
  destruct us; cbn; [discriminate|].
  destruct uc; cbn; [discriminate|].
  destruct ug as [e | [ip port]]; cbn; [discriminate|].
  destruct ucl; cbn; [discriminate|].
  intros _. pose proof (release_fresh _ _ Hfresh) as Hr.
  unfold release in Hr. cbn in Hr. rewrite Hr. repeat split.
  intros d Hd. apply Ht in Hd. cbn. lia.
Qed.

Lemma boot_tidy (files : filesystem) : tidy (boot files).
Proof. intros d []. Defined.

Lemma get_local_ip_restores_sockets_online :
  open_socks (world_after get_local_ip env_ok (boot with_cert)) = [] /\
  fs (world_after get_local_ip env_ok (boot with_cert)) = with_cert /\
  tidy (world_after get_local_ip env_ok (boot with_cert)).
Proof.
  apply (get_local_ip_restores_sockets env_ok (boot with_cert)).
  - apply boot_tidy.
  - reflexivity.
Defined.

(* ================================================================= *)
(** ** Further properties of [main] *)

(** *** Helpers *)

Lemma lookup_closes_own (env : Env) (w : World) (d : fd) (r : option exn) :
  In (SocketClose d r) (trace_of get_local_ip env w) -> d = next_fd w.
Proof.
  destruct env as [a sh hb tl us uc ug ucl sl].
  unfold_calls; cbn.
  destruct us; cbn; [intros [H | []]; discriminate|].
  destruct uc; cbn; [intros [H | [H | []]]; discriminate|].
  destruct ug as [e | [ip port]]; cbn;
    [intros [H | [H | [H | []]]]; discriminate|].
  destruct ucl; cbn; intros [H | [H | [H | [H | []]]]]; try discriminate;
    injection H as <- _; reflexivity.
Qed.

Lemma lookup_failed_localhost (env : Env) (w : World) :
  existsb failed (trace_of get_local_ip env w) = true ->
  result_of get_local_ip env w = Done "localhost"%string.
Proof.
  destruct env as [a sh hb tl us uc ug ucl sl].
  unfold_calls; cbn.
  destruct us; cbn; [reflexivity|].
  destruct uc; cbn; [reflexivity|].
  destruct ug as [e | [ip port]]; cbn; [reflexivity|].
  destruct ucl; cbn; [reflexivity | discriminate].
Qed.

(** The run of a server that started, with what the lookup leaves. *)
Lemma main_started (env : Env) (w : World) :
  http_bind env = None ->
  wrap_answer env w = None ->
  exists t_ip w_ip ip,
    get_local_ip env (w_bound env w) = (t_ip, w_ip, Done ip) /\
    forallb is_lookup t_ip = true /\
    fs w_ip = files_then env w /\
    main env w =
      ((provisioning env w
          ++ [HTTPServer "" 8000 None;
              WrapSocket "./cert.pem" true (cert_then env w) None])
         ++ t_ip
         ++ trace_of (startup_report 8000 ip) env w_ip
         ++ fst (serving env w),
       w_ip, snd (serving env w)).
Proof.
  intros Hb Hw. rewrite main_run. unfold main_table. rewrite Hb, Hw.
  destruct (get_local_ip_run env (w_bound env w)) as (t & w' & ip & E & L & F).
  rewrite E. exists t, w', ip. auto.
Qed.

(** The three ways again, as a choice on the answers. *)
Lemma main_ways (env : Env) (w : World) :
  (exists e, http_bind env = Some e) \/
  (http_bind env = None /\ exists e, wrap_answer env w = Some e) \/
  (http_bind env = None /\ wrap_answer env w = None).
Proof.
  destruct (http_bind env); [left; eauto|].
  destruct (wrap_answer env w); [right; left; eauto | right; right; auto].
Qed.

Lemma main_bind_failed (env : Env) (w : World) (e : exn) :
  http_bind env = Some e ->
  main env w =
    (provisioning env w ++ [HTTPServer "" 8000 (Some e)],
     w_provisioned env w, Raised e).
Proof. intros Hb. rewrite main_run. unfold main_table. rewrite Hb. reflexivity. Qed.

Lemma main_wrap_failed (env : Env) (w : World) (e : exn) :
  http_bind env = None ->
  wrap_answer env w = Some e ->
  main env w =
    (provisioning env w
       ++ [HTTPServer "" 8000 None;
           WrapSocket "./cert.pem" true (cert_then env w) (Some e)],
     w_bound env w, Raised e).
Proof.
  intros Hb Hw. rewrite main_run. unfold main_table. rewrite Hb, Hw.
  reflexivity.
Qed.

Lemma main_files (env : Env) (w : World) :
  fs (world_after main env w) = files_then env w.
Proof.
  unfold world_after.
  destruct (main_ways env w) as [[e Hb] | [[Hb [e Hw]] | [Hb Hw]]].
  - rewrite (main_bind_failed _ _ _ Hb). reflexivity.
  - rewrite (main_wrap_failed _ _ _ Hb Hw). reflexivity.
  - destruct (main_started _ _ Hb Hw) as (t & w' & ip & _ & _ & F & ->).
    exact F.
Qed.

Lemma no_system_if_present (env : Env) (w : World) :
  exists_on (fs w) "cert.pem" = true ->
  filter is_system (trace_of main env w) = [].
Proof.
  intros Hex.
  destruct (filter is_system (trace_of main env w)) as [|ev l] eqn:E;
    [reflexivity|].
  assert (Hin : In ev (filter is_system (trace_of main env w)))
    by (rewrite E; left; reflexivity).
  apply filter_In in Hin. destruct Hin as [Hin Hsys].
  destruct ev; try discriminate.
  apply system_event in Hin. destruct Hin as [Hno _].
  unfold present in Hno. congruence.
Qed.

Lemma serve_started (env : Env) (w : World) (sock : socket_obj) (r : outcome unit) :
  In (ServeForever sock r) (trace_of main env w) ->
  http_bind env = None /\ wrap_answer env w = None /\
  sock = listener w /\ r = serve_loop env.
Proof.
  intros H. apply main_event in H.
  destruct H as [H | [H | [[Hb H] | (Hb & Hw & [H | [[H _] | H]])]]];
    try discriminate.
  - apply provisioning_events in H.
    destruct H as [[H _] | [H | [_ H]]]; discriminate.
  - apply serving_events in H. destruct H as [H | [_ H]]; [|discriminate].
    injection H as -> ->. auto.
Qed.

Lemma serving_head (env : Env) (w : World) :
  exists post,
    fst (serving env w) = ServeForever (listener w) (serve_loop env) :: post.
Proof.
  unfold serving.
  destruct (serve_loop env) as [[]|e|]; try destruct (is_KeyboardInterrupt e);
    cbn [fst]; eauto.
Qed.

Lemma serve_reached (env : Env) (w : World) :
  http_bind env = None ->
  wrap_answer env w = None ->
  In (ServeForever (listener w) (serve_loop env)) (trace_of main env w).
Proof.
  intros Hb Hw. unfold trace_of.
  destruct (main_started _ _ Hb Hw) as (t & w' & ip & _ & _ & _ & ->).
  cbn [fst]. destruct (serving_head env w) as [post ->].
  apply in_or_app; right. apply in_or_app; right. apply in_or_app; right.
  left. reflexivity.
Qed.

(** *** Files *)

(** X4.  [main] changes no file itself: the files after a run are those at
    startup when [cert.pem] existed, and otherwise those the certificate
    command left.  An existing certificate is never rewritten or
    removed, however the run ends. *)
Theorem main_leaves_files (env : Env) (w : World) :
  fs (world_after main env w)
  = (if exists_on (fs w) "cert.pem" then fs w
     else snd (shell env openssl_command (fs w))) /\
  (exists_on (fs w) "cert.pem" = true -> fs (world_after main env w) = fs w).
Proof.
  rewrite main_files. unfold files_then, present, generated.
  split; [reflexivity|]. intros ->. reflexivity.
Qed.

Lemma main_leaves_files_run :
  fs (world_after main env_port_busy (boot with_cert)) = with_cert.
Proof.
  apply (proj2 (main_leaves_files env_port_busy (boot with_cert))).
  reflexivity.
Defined.

(** X5.  Starting again from the world a run leaves: when [cert.pem] existed
    before the first run, or its certificate command left one, the
    second run (in any environment) runs no command and leaves the files
    as the first run left them. *)
Theorem second_run_does_not_regenerate (env1 env2 : Env) (w : World) :
  exists_on (fs w) "cert.pem" = true \/
  exists_on (snd (shell env1 openssl_command (fs w))) "cert.pem" = true ->
  count is_system (trace_of main env2 (world_after main env1 w)) = 0%nat /\
  fs (world_after main env2 (world_after main env1 w))
  = fs (world_after main env1 w).
Proof.
  intros H.
  assert (Hex : exists_on (fs (world_after main env1 w)) "cert.pem" = true).
  { rewrite main_files. unfold files_then, present, generated.
    destruct (exists_on (fs w) "cert.pem") eqn:E; [exact E|].
    destruct H as [H | H]; [discriminate | exact H]. }
  split.
  - unfold count. rewrite (no_system_if_present _ _ Hex). reflexivity.
  - rewrite main_files. unfold files_then, present. rewrite Hex. reflexivity.
Qed.

Lemma second_run_does_not_regenerate_run :
  count is_system
    (trace_of main env_no_tool (world_after main env_ok (boot no_files))) = 0%nat /\
  fs (world_after main env_no_tool (world_after main env_ok (boot no_files)))
  = fs (world_after main env_ok (boot no_files)).
Proof.
  apply (second_run_does_not_regenerate env_ok env_no_tool (boot no_files)).
  right. reflexivity.
Defined.

(** *** How often the certificate is looked at *)

Lemma lookup_filter (kind : event -> bool) (t : list event) :
  (forall ev, kind ev = true -> is_lookup ev = false) ->
  forallb is_lookup t = true ->
  filter kind t = [].
Proof.
  intros Hk. induction t as [|ev t IH]; [reflexivity|].
  cbn. intros H. apply andb_true_iff in H. destruct H as [Hev Ht].
  destruct (kind ev) eqn:E; [|auto].
  apply Hk in E. congruence.
Qed.

Lemma serving_filter (kind : event -> bool) (env : Env) (w : World) :
  (forall ev, kind ev = true -> is_path_test ev || is_system ev = true) ->
  filter kind (fst (serving env w)) = [].
Proof.
  intros Hk. unfold serving.
  assert (Hs : forall r, kind (ServeForever (listener w) r) = false).
  { intros r. destruct (kind (ServeForever (listener w) r)) eqn:E; [|reflexivity].
    apply Hk in E. discriminate. }
  assert (Hp : forall line, kind (Print line) = false).
  { intros line. destruct (kind (Print line)) eqn:E; [|reflexivity].
    apply Hk in E. discriminate. }
  destruct (serve_loop env) as [[]|e|]; try destruct (is_KeyboardInterrupt e);
    cbn [fst filter]; rewrite ?Hs, ?Hp; reflexivity.
Qed.

(** The count of path tests or of commands in a run is that of the
    provisioning lines. *)
Lemma main_count (kind : event -> bool) (env : Env) (w : World) :
  (forall ev, kind ev = true -> is_path_test ev || is_system ev = true) ->
  count kind (trace_of main env w) = count kind (provisioning env w).
Proof.
  intros Hk. unfold count, trace_of.
  assert (Hh : forall res, kind (HTTPServer "" 8000 res) = false).
  { intros r. destruct (kind (HTTPServer "" 8000 r)) eqn:E; [|reflexivity].
    apply Hk in E. discriminate. }
  assert (Hw' : forall st res, kind (WrapSocket "./cert.pem" true st res) = false).
  { intros st r.
    destruct (kind (WrapSocket "./cert.pem" true st r)) eqn:E; [|reflexivity].
    apply Hk in E. discriminate. }
  assert (Hl : forall ev, kind ev = true -> is_lookup ev = false).
  { intros ev E. apply Hk in E. destruct ev; try discriminate; reflexivity. }
  assert (Hp : forall ev, is_print ev = true -> kind ev = false).
  { intros ev P. destruct (kind ev) eqn:E; [|reflexivity].
    apply Hk in E. destruct ev; discriminate. }
  destruct (main_ways env w) as [[e Hb] | [[Hb [e Hw]] | [Hb Hw]]].
  - rewrite (main_bind_failed _ _ _ Hb). cbn [fst].
    rewrite filter_app. cbn [filter]. rewrite Hh, app_nil_r. reflexivity.
  - rewrite (main_wrap_failed _ _ _ Hb Hw). cbn [fst].
    rewrite filter_app. cbn [filter]. rewrite Hh, Hw', app_nil_r. reflexivity.
  - destruct (main_started _ _ Hb Hw) as (t & w' & ip & _ & L & _ & ->).
    cbn [fst]. rewrite !filter_app. cbn [filter]. rewrite Hh, Hw'.
    rewrite (lookup_filter kind t Hl L), (serving_filter kind env w Hk).
    assert (Hr : filter kind (trace_of (startup_report 8000 ip) env w') = []).
    { destruct (filter kind (trace_of (startup_report 8000 ip) env w'))
        as [|ev l] eqn:E; [reflexivity|].
      assert (Hin : In ev (filter kind (trace_of (startup_report 8000 ip) env w')))
        by (rewrite E; left; reflexivity).
      apply filter_In in Hin. destruct Hin as [Hin Hev].
      apply (forallb_In is_print) in Hin; [|apply startup_report_prints].
      apply Hp in Hin. congruence. }
    rewrite Hr, !app_nil_r. reflexivity.
Qed.

(** X6.  Every run of [main] tests for [cert.pem] exactly once and never
    again, whatever the certificate command does; it runs that command
    once when the file was absent and not at all when it existed: there
    is no retry. *)
Theorem certificate_checked_once (env : Env) (w : World) :
  count is_path_test (trace_of main env w) = 1%nat /\
  count is_system (trace_of main env w)
  = (if exists_on (fs w) "cert.pem" then 0%nat else 1%nat).
Proof.
  split.
  - rewrite main_count.
    + unfold provisioning. destruct (present w); reflexivity.
    + intros ev H. rewrite H. reflexivity.
  - rewrite main_count.
    + unfold provisioning, present.
      destruct (exists_on (fs w) "cert.pem"); reflexivity.
    + intros ev H. rewrite H. apply orb_true_r.
Qed.

(** *** How a run ends *)

Lemma main_result (env : Env) (w : World) :
  http_bind env = None ->
  wrap_answer env w = None ->
  result_of main env w = snd (serving env w).
Proof.
  intros Hb Hw. unfold result_of.
  destruct (main_started _ _ Hb Hw) as (t & w' & ip & _ & _ & _ & ->).
  reflexivity.
Qed.

(** X7.  [main] returns normally exactly when the serve loop was entered and
    either returned or was stopped by [KeyboardInterrupt]; it never
    returns normally from a failed startup. *)
Theorem main_returns_only_after_serving (env : Env) (w : World) :
  result_of main env w = Done tt <->
  exists sock,
    In (ServeForever sock (Done tt)) (trace_of main env w) \/
    In (ServeForever sock (Raised KeyboardInterrupt)) (trace_of main env w).
Proof.
  split.
  - intros H.
    destruct (main_ways env w) as [[e Hb] | [[Hb [e Hw]] | [Hb Hw]]].
    + unfold result_of in H. rewrite (main_bind_failed _ _ _ Hb) in H.
      discriminate.
    + unfold result_of in H. rewrite (main_wrap_failed _ _ _ Hb Hw) in H.
      discriminate.
    + pose proof (serve_reached _ _ Hb Hw) as Hin.
      rewrite (main_result _ _ Hb Hw) in H. unfold serving in H.
      exists (listener w).
      destruct (serve_loop env) as [[]|e|]; [left; exact Hin | | discriminate].
      destruct e; try discriminate. right. exact Hin.
  - intros [sock [H | H]]; apply serve_started in H;
      destruct H as (Hb & Hw & _ & Hs);
      rewrite (main_result _ _ Hb Hw); unfold serving; rewrite <- Hs;
      reflexivity.
Qed.

Lemma provisioning_no_farewell (env : Env) (w : World) :
  ~ In (Print (nl +++ nl +++ "👋 Server stopped")) (provisioning env w).
Proof.
  unfold provisioning. destruct (present w); cbn [app In]; intros H;
    repeat (destruct H as [H | H]; [discriminate|]); contradiction.
Qed.

Lemma report_no_farewell (PORT : Z) (ip : string) (env : Env) (w : World) :
  ~ In (Print (nl +++ nl +++ "👋 Server stopped"))
       (trace_of (startup_report PORT ip) env w).
Proof.
  cbn. intros H.
  repeat (destruct H as [H | H]; [discriminate|]); contradiction.
Qed.

(** X8.  The farewell line is printed exactly in the runs in which
    [serve_forever] raised [KeyboardInterrupt]: not when the loop ends
    otherwise, and not when the startup fails, by an interrupt or not. *)
Theorem farewell_only_on_interrupt (env : Env) (w : World) :
  In (Print (nl +++ nl +++ "👋 Server stopped")) (trace_of main env w) <->
  exists sock,
    In (ServeForever sock (Raised KeyboardInterrupt)) (trace_of main env w).
Proof.
  split.
  - intros H.
    destruct (main_ways env w) as [[e Hb] | [[Hb [e Hw]] | [Hb Hw]]].
    + unfold trace_of in H. rewrite (main_bind_failed _ _ _ Hb) in H.
      cbn [fst] in H. apply in_app_or in H.
      destruct H as [H | [H | []]]; [|discriminate].
      elim (provisioning_no_farewell _ _ H).
    + unfold trace_of in H. rewrite (main_wrap_failed _ _ _ Hb Hw) in H.
      cbn [fst] in H. apply in_app_or in H.
      destruct H as [H | [H | [H | []]]]; try discriminate.
      elim (provisioning_no_farewell _ _ H).
    + pose proof (serve_reached _ _ Hb Hw) as Hin.
      exists (listener w).
      unfold trace_of in H.
      destruct (main_started _ _ Hb Hw) as (t & w' & ip & _ & L & _ & R).
      rewrite R in H. cbn [fst] in H.
      apply in_app_or in H. destruct H as [H | H].
      { apply in_app_or in H. destruct H as [H | [H | [H | []]]];
          try discriminate.
        elim (provisioning_no_farewell _ _ H). }
      apply in_app_or in H. destruct H as [H | H].
      { apply (forallb_In _ _ _ L) in H. discriminate. }
      apply in_app_or in H. destruct H as [H | H].
      { elim (report_no_farewell _ _ _ _ H). }
      apply serving_events in H. destruct H as [H | [Hs _]]; [discriminate|].
      rewrite <- Hs. exact Hin.
  - intros [sock H]. apply serve_started in H.
    destruct H as (Hb & Hw & _ & Hs).
    unfold trace_of.
    destruct (main_started _ _ Hb Hw) as (t & w' & ip & _ & _ & _ & ->).
    cbn [fst]. unfold serving. rewrite <- Hs. cbn [is_KeyboardInterrupt fst].
    apply in_or_app; right. apply in_or_app; right. apply in_or_app; right.
    right; left. reflexivity.
Qed.

(** *** Sockets *)

(** X9.  The only socket a run of [main] ever closes is the one of the
    address lookup, the descriptor handed out after the listening
    socket's.  The listening socket is never closed by the script, not
    even when the loop is interrupted. *)
Theorem main_closes_only_the_probe (env : Env) (w : World) (d : fd) (r : option exn) :
  In (SocketClose d r) (trace_of main env w) ->
  d = S (next_fd w) /\
  d <> descriptor (listener w) /\
  In (HTTPServer "" 8000 None) (trace_of main env w).
Proof.
  intros H.
  assert (K : d = S (next_fd w) /\ http_bind env = None).
  { unfold trace_of in H.
    destruct (main_ways env w) as [[e Hb] | [[Hb [e Hw]] | [Hb Hw]]].
    - rewrite (main_bind_failed _ _ _ Hb) in H. cbn [fst] in H.
      apply in_app_or in H. destruct H as [H | [H | []]]; [|discriminate].
      apply provisioning_events in H.
      destruct H as [[H _] | [H | [_ H]]]; discriminate.
    - rewrite (main_wrap_failed _ _ _ Hb Hw) in H. cbn [fst] in H.
      apply in_app_or in H.
      destruct H as [H | [H | [H | []]]]; try discriminate.
      apply provisioning_events in H.
      destruct H as [[H _] | [H | [_ H]]]; discriminate.
    - destruct (main_started _ _ Hb Hw) as (t & w' & ip & E & _ & _ & R).
      rewrite R in H. cbn [fst] in H.
      apply in_app_or in H. destruct H as [H | H].
      { apply in_app_or in H. destruct H as [H | [H | [H | []]]];
          try discriminate.
        apply provisioning_events in H.
        destruct H as [[H _] | [H | [_ H]]]; discriminate. }
      apply in_app_or in H. destruct H as [H | H].
      { assert (Ht : t = trace_of get_local_ip env (w_bound env w))
          by (unfold trace_of; rewrite E; reflexivity).
        rewrite Ht in H. apply lookup_closes_own in H. auto. }
      apply in_app_or in H. destruct H as [H | H].
      { apply (forallb_In is_print) in H; [discriminate|].
        apply startup_report_prints. }
      apply serving_events in H. destruct H as [H | [_ H]]; discriminate. }
  destruct K as [-> Hb]. split; [reflexivity|]. split.
  - cbn. lia.
  - rewrite <- Hb. apply bind_reached.
Qed.

Lemma main_closes_only_the_probe_run :
  4%nat = S (next_fd (boot with_cert)) /\
  4%nat <> descriptor (listener (boot with_cert)) /\
  In (HTTPServer "" 8000 None) (trace_of main env_ok (boot with_cert)).
Proof.
  apply (main_closes_only_the_probe env_ok (boot with_cert) 4%nat None).
  cbn. tauto.
Defined.

Lemma main_returns_only_after_serving_run :
  result_of main env_ok (boot with_cert) = Done tt.
Proof.
  apply (proj2 (main_returns_only_after_serving env_ok (boot with_cert))).
  exists (Tls 3%nat "./cert.pem" true). right. cbn. tauto.
Defined.

Lemma farewell_only_on_interrupt_run :
  In (Print (nl +++ nl +++ "👋 Server stopped"))
     (trace_of main env_ok (boot with_cert)).
Proof.
  apply (proj2 (farewell_only_on_interrupt env_ok (boot with_cert))).
  exists (Tls 3%nat "./cert.pem" true). cbn. tauto.
Defined.

(** *** A certificate that is there but does not load *)

(** X10.  An existing [cert.pem] is taken as it is: when the wrap raises on it
    (unreadable file, bad contents), [main] ends with that exception, has
    run no command to replace the file, and leaves the files untouched. *)
Theorem bad_certificate_not_replaced (env : Env) (w : World)
      (cf : string) (ss : bool) (st : file_status) (e : exn) :
  exists_on (fs w) "cert.pem" = true ->
  In (WrapSocket cf ss st (Some e)) (trace_of main env w) ->
  result_of main env w = Raised e /\
  count is_system (trace_of main env w) = 0%nat /\
  fs (world_after main env w) = fs w /\
  st = stat (fs w) "cert.pem".
Proof.
  intros Hex H. apply wrap_event in H.
  destruct H as (Hb & _ & _ & -> & Hw). symmetry in Hw.
  repeat split.
  - unfold result_of. rewrite (main_wrap_failed _ _ _ Hb Hw). reflexivity.
  - unfold count. rewrite (no_system_if_present _ _ Hex). reflexivity.
  - rewrite main_files. unfold files_then, present. rewrite Hex. reflexivity.
  - unfold cert_then, files_then, present. rewrite Hex. reflexivity.
Qed.

Lemma bad_certificate_not_replaced_run :
  result_of main env_ok (boot (fun _ => Unreadable)) = Raised PermissionError /\
  count is_system (trace_of main env_ok (boot (fun _ => Unreadable))) = 0%nat /\
  fs (world_after main env_ok (boot (fun _ => Unreadable))) = (fun _ => Unreadable) /\
  Unreadable = stat (fun _ => Unreadable) "cert.pem".
Proof.
  apply (bad_certificate_not_replaced env_ok (boot (fun _ => Unreadable))
           "./cert.pem" true Unreadable PermissionError).
  - reflexivity.
  - cbn. tauto.
Defined.

(** *** A first start *)

(** X11.  Without a certificate, when the command leaves a readable
    [cert.pem] and neither the bind nor the TLS setup fails, the server
    starts: the local URL is printed, the serve loop runs on the wrapped
    listening socket, [main] ends as the loop does (normally on
    [KeyboardInterrupt]), and the certificate is there afterwards. *)
Theorem first_start_serves (env : Env) (w : World) :
  exists_on (fs w) "cert.pem" = false ->
  stat (snd (shell env openssl_command (fs w))) "cert.pem" = Readable ->
  http_bind env = None ->
  tls_load env = None ->
  In (Print "   https://localhost:8000") (trace_of main env w) /\
  In (ServeForever (Tls (next_fd w) "./cert.pem" true) (serve_loop env))
     (trace_of main env w) /\
  result_of main env w
  = match serve_loop env with
    | Raised KeyboardInterrupt => Done tt
    | r => r
    end /\
  stat (fs (world_after main env w)) "cert.pem" = Readable.
Proof.
  intros Hno Hgen Hb Htls.
  assert (Hc : cert_then env w = Readable).
  { unfold cert_then, files_then, present, generated. rewrite Hno. exact Hgen. }
  assert (Hw : wrap_answer env w = None).
  { unfold wrap_answer. rewrite Hc. exact Htls. }
  repeat split.
  - unfold trace_of.
    destruct (main_started _ _ Hb Hw) as (t & w' & ip & _ & _ & _ & ->).
    cbn [fst]. apply in_or_app; right. apply in_or_app; right.
    apply in_or_app; left. cbn. tauto.
  - apply (serve_reached _ _ Hb Hw).
  - rewrite (main_result _ _ Hb Hw). unfold serving.
    destruct (serve_loop env) as [[]|e|]; try reflexivity.
    destruct e; reflexivity.
  - rewrite main_files. unfold files_then, present, generated.
    rewrite Hno. exact Hgen.
Qed.

Lemma first_start_serves_run :
  In (Print "   https://localhost:8000") (trace_of main env_ok (boot no_files)) /\
  In (ServeForever (Tls 3%nat "./cert.pem" true) (Raised KeyboardInterrupt))
     (trace_of main env_ok (boot no_files)) /\
  result_of main env_ok (boot no_files) = Done tt /\
  stat (fs (world_after main env_ok (boot no_files))) "cert.pem" = Readable.
Proof.
  apply (first_start_serves env_ok (boot no_files)); reflexivity.
Defined.

(** *** The LAN line when the lookup fails *)

Lemma printed_app (t1 t2 : list event) :
  printed (t1 ++ t2) = printed t1 ++ printed t2.
Proof.
  induction t1 as [|ev t1 IH]; [reflexivity|].
  destruct ev; cbn; rewrite ?IH; reflexivity.
Qed.

Lemma printed_lookup (t : list event) :
  forallb is_lookup t = true -> printed t = [].
Proof.
  induction t as [|ev t IH]; [reflexivity|].
  cbn. intros H. apply andb_true_iff in H. destruct H as [Hev Ht].
  destruct ev; try discriminate; cbn; auto.
Qed.

Lemma count_line_app (line : string) (t1 t2 : list event) :
  count_line line (t1 ++ t2) = (count_line line t1 + count_line line t2)%nat.
Proof.
  unfold count_line. rewrite printed_app, filter_app, length_app. reflexivity.
Qed.

(** X12.  When the server has started and a step of the lookup failed, the
    line for other devices repeats the local URL: [https://localhost:8000]
    is printed twice, and no other address is shown. *)
Theorem lan_line_falls_back (env : Env) (w : World) :
  http_bind env = None ->
  (exists st, In (WrapSocket "./cert.pem" true st None) (trace_of main env w)) ->
  existsb (fun ev => is_lookup ev && failed ev) (trace_of main env w) = true ->
  count_line "   https://localhost:8000" (trace_of main env w) = 2%nat /\
  count is_report (trace_of main env w) = 3%nat.
Proof.
  intros Hb [st Hin] Hf.
  apply wrap_event in Hin. destruct Hin as (_ & _ & _ & _ & Hw). symmetry in Hw.
  unfold trace_of in *.
  destruct (main_started _ _ Hb Hw) as (t & w' & ip & E & L & _ & R).
  rewrite R in *. cbn [fst] in *.
  assert (Hip : ip = "localhost"%string).
  { assert (Hft : existsb failed t = true).
    { apply existsb_exists in Hf. destruct Hf as (ev & Hev & Hq).
      apply andb_true_iff in Hq. destruct Hq as [Hl Hfail].
      apply existsb_exists. exists ev. split; [|exact Hfail].
      apply in_app_or in Hev. destruct Hev as [Hev | Hev].
      { apply in_app_or in Hev. destruct Hev as [Hev | [<- | [<- | []]]];
          try discriminate.
        pose proof (quiet_In _ _ (provisioning_quiet env w) Hev) as Q.
        apply orb_false_iff in Q. destruct Q. congruence. }
      apply in_app_or in Hev. destruct Hev as [Hev | Hev]; [exact Hev|].
      apply in_app_or in Hev. destruct Hev as [Hev | Hev].
      { apply (forallb_In is_print) in Hev; [|apply startup_report_prints].
        destruct ev; discriminate. }
      apply serving_events in Hev. destruct Hev as [-> | [_ ->]]; discriminate. }
    assert (Ht : t = trace_of get_local_ip env (w_bound env w))
      by (unfold trace_of; rewrite E; reflexivity).
    rewrite Ht in Hft. apply lookup_failed_localhost in Hft.
    unfold result_of in Hft. rewrite E in Hft. cbn in Hft. congruence. }
  subst ip.
  assert (Hs1 : count_line "   https://localhost:8000" (fst (serving env w)) = 0%nat).
  { unfold serving.
    destruct (serve_loop env) as [[]|e|]; try destruct (is_KeyboardInterrupt e);
      reflexivity. }
  assert (Hs2 : count is_report (fst (serving env w)) = 0%nat).
  { unfold serving.
    destruct (serve_loop env) as [[]|e|]; try destruct (is_KeyboardInterrupt e);
      reflexivity. }
  assert (Hp1 : count_line "   https://localhost:8000" (provisioning env w) = 0%nat).
  { unfold provisioning. destruct (present w); reflexivity. }
  assert (Hp2 : count is_report (provisioning env w) = 0%nat).
  { unfold provisioning. destruct (present w); reflexivity. }
  assert (Hl1 : count_line "   https://localhost:8000" t = 0%nat).
  { unfold count_line. rewrite (printed_lookup _ L). reflexivity. }
  assert (Hl2 : count is_report t = 0%nat).
  { unfold count. rewrite (lookup_filter is_report t); [reflexivity| |exact L].
    intros ev Hr. destruct ev; try discriminate; reflexivity. }
  split.
  - rewrite !count_line_app, Hp1, Hl1, Hs1. reflexivity.
  - unfold count in *. rewrite !filter_app, !length_app, Hp2, Hl2, Hs2.
    reflexivity.
Qed.

Lemma lan_line_falls_back_offline :
  count_line "   https://localhost:8000"
             (trace_of main env_offline (boot with_cert)) = 2%nat /\
  count is_report (trace_of main env_offline (boot with_cert)) = 3%nat.
Proof.
  apply (lan_line_falls_back env_offline (boot with_cert)).
  - reflexivity.
  - exists Readable. cbn. tauto.
  - reflexivity.
Defined.
